(** * DraftAI front end: the [App] component of [frontend/src/App.js]

    The component keeps eight pieces of React state and offers five event
    handlers ([createNewDraft], [loadDraft], [saveDraft], [deleteDraft],
    [generateAIContent]) plus [fetchDrafts].  The handlers talk to a remote
    draft store and to a text generation service through axios, and to the
    user through [window.confirm].

    The embedding below keeps the code's shape: the React state is a record,
    every handler is a computation in a small state-and-exception monad over
    the store, the outside world and an event log, and the outside world is a
    parameter, so every statement holds for every server and every user. *)

From Stdlib Require Import List NArith ZArith String Ascii Bool Lia.
Import ListNotations.

Set Implicit Arguments.

(** ** JavaScript strings *)

(** A JavaScript string is a sequence of UTF-16 code units. *)
Module JsString.

Definition t := list N.

(** An ASCII literal of the source, as code units. *)
Definition lit (s : string) : t := map N_of_ascii (list_ascii_of_string s).

Definition LF : N := 10.

(** The code units [String.prototype.trim] strips: ECMAScript WhiteSpace
    (TAB, VT, FF, SP, NBSP, ZWNBSP and category Zs) and LineTerminator
    (LF, CR, LS, PS).  All of them lie in the basic plane. *)
Definition is_white_space (c : N) : bool :=
  ((9 <=? c) && (c <=? 13)
   || (c =? 32) || (c =? 160) || (c =? 5760)
   || (8192 <=? c) && (c <=? 8202)
   || (c =? 8232) || (c =? 8233) || (c =? 8239) || (c =? 8287)
   || (c =? 12288) || (c =? 65279))%N.

Fixpoint trimStart (s : t) : t :=
  match s with
  | [] => []
  | c :: r => if is_white_space c then trimStart r else s
  end.

Definition trimEnd (s : t) : t := rev (trimStart (rev s)).

(** [s.trim()] *)
Definition trim (s : t) : t := trimEnd (trimStart s).

(** ToBoolean on a string: only the empty string is falsy. *)
Definition truthy (s : t) : bool :=
  match s with [] => false | _ :: _ => true end.

(** [a === b] on strings. *)
Fixpoint eqb (a b : t) : bool :=
  match a, b with
  | [], [] => true
  | x :: a', y :: b' => (x =? y)%N && eqb a' b'
  | _, _ => false
  end.

(** [s.split('\n')]: used only to say what a blank line is. *)
Fixpoint lines (s : t) : list t :=
  match s with
  | [] => [[]]
  | c :: r =>
      if (c =? LF)%N then [] :: lines r
      else match lines r with
           | l :: ls => (c :: l) :: ls
           | [] => [[c]]
           end
  end.

(** Every code unit of [s] is white space (the empty string included). *)
Definition blank (s : t) : Prop := Forall (fun c => is_white_space c = true) s.

End JsString.

Definition jsstring : Type := JsString.t.
Notation "'js' s" := (JsString.lit s%string) (at level 9, s at level 0, only parsing).

(** ** Data model *)

(** A draft as the remote store returns it. *)
Record Draft := {
  draft_id : jsstring;
  draft_title : jsstring;
  draft_content : jsstring;
  created_at : jsstring;
  updated_at : jsstring
}.

(** The eight [useState] cells of [App]. *)
Record AppState := {
  drafts : list Draft;
  currentDraft : option Draft;
  title : jsstring;
  content : jsstring;
  isLoading : bool;
  error : option jsstring;
  aiPrompt : jsstring;
  isGenerating : bool
}.

(** The initial values passed to [useState]. *)
Definition initialState : AppState :=
  {| drafts := []; currentDraft := None; title := []; content := [];
     isLoading := false; error := None; aiPrompt := []; isGenerating := false |}.

(** The state setters, as store transformers. *)
Definition setDrafts (v : list Draft) (s : AppState) : AppState :=
  {| drafts := v; currentDraft := currentDraft s; title := title s;
     content := content s; isLoading := isLoading s; error := error s;
     aiPrompt := aiPrompt s; isGenerating := isGenerating s |}.

Definition setCurrentDraft (v : option Draft) (s : AppState) : AppState :=
  {| drafts := drafts s; currentDraft := v; title := title s;
     content := content s; isLoading := isLoading s; error := error s;
     aiPrompt := aiPrompt s; isGenerating := isGenerating s |}.

Definition setTitle (v : jsstring) (s : AppState) : AppState :=
  {| drafts := drafts s; currentDraft := currentDraft s; title := v;
     content := content s; isLoading := isLoading s; error := error s;
     aiPrompt := aiPrompt s; isGenerating := isGenerating s |}.

(** [setContent] is also called with an updater function
    ([setContent(prev => ...)]), so it takes the function. *)
Definition setContentWith (f : jsstring -> jsstring) (s : AppState) : AppState :=
  {| drafts := drafts s; currentDraft := currentDraft s; title := title s;
     content := f (content s); isLoading := isLoading s; error := error s;
     aiPrompt := aiPrompt s; isGenerating := isGenerating s |}.

Definition setContent (v : jsstring) : AppState -> AppState :=
  setContentWith (fun _ => v).

Definition setIsLoading (v : bool) (s : AppState) : AppState :=
  {| drafts := drafts s; currentDraft := currentDraft s; title := title s;
     content := content s; isLoading := v; error := error s;
     aiPrompt := aiPrompt s; isGenerating := isGenerating s |}.

Definition setError (v : option jsstring) (s : AppState) : AppState :=
  {| drafts := drafts s; currentDraft := currentDraft s; title := title s;
     content := content s; isLoading := isLoading s; error := v;
     aiPrompt := aiPrompt s; isGenerating := isGenerating s |}.

Definition setAiPrompt (v : jsstring) (s : AppState) : AppState :=
  {| drafts := drafts s; currentDraft := currentDraft s; title := title s;
     content := content s; isLoading := isLoading s; error := error s;
     aiPrompt := v; isGenerating := isGenerating s |}.

Definition setIsGenerating (v : bool) (s : AppState) : AppState :=
  {| drafts := drafts s; currentDraft := currentDraft s; title := title s;
     content := content s; isLoading := isLoading s; error := error s;
     aiPrompt := aiPrompt s; isGenerating := v |}.

(** The id the edit session is bound to: [currentDraft.id] when
    [currentDraft] is not null. *)
Definition boundId (s : AppState) : option jsstring :=
  option_map draft_id (currentDraft s).

(** ** The outside world *)

(** The requests the component sends (the base URL is a constant). *)
Inductive Request :=
| GET_drafts
| POST_drafts (title content : jsstring)
| PUT_draft (id title content : jsstring)
| DELETE_draft (id : jsstring)
| POST_generate (prompt : jsstring) (max_tokens : Z).

(** The value an axios promise rejects with (transport failure or a status
    outside 2xx); only its message is kept. *)
Definition AxiosError := jsstring.

Inductive Settled (A : Type) :=
| Resolved (data : A)
| Rejected (err : AxiosError).
Arguments Resolved {A} data.
Arguments Rejected {A} err.

(** [response.data] of [POST /api/ai/generate]. *)
Record Generated := { generated_text : jsstring }.

(** What answers the component: the remote store, the generation service and
    the user in front of the confirmation dialog, over a state [W] of their
    own.  The answers are typed as section 6 of the interface gives them. *)
Record Env (W : Type) := {
  http_get_drafts : W -> Settled (list Draft) * W;
  http_post_drafts : jsstring -> jsstring -> W -> Settled Draft * W;
  http_put_draft : jsstring -> jsstring -> jsstring -> W -> Settled Draft * W;
  http_delete_draft : jsstring -> W -> Settled unit * W;
  http_post_generate : jsstring -> Z -> W -> Settled Generated * W;
  window_confirm : jsstring -> W -> bool * W
}.

(** What an observer of the page sees happen, in order.  A request carries
    the store as it is rendered while the request is in flight. *)
Inductive Event :=
| Await (req : Request) (shown : AppState)
| Confirm (msg : jsstring) (shown : AppState)
| ConsoleError (label : jsstring) (err : AxiosError).

Definition requests (l : list Event) : list Request :=
  flat_map (fun e => match e with Await r _ => [r] | _ => [] end) l.

Definition is_create (r : Request) : bool :=
  match r with POST_drafts _ _ => true | _ => false end.

Definition is_update (r : Request) : bool :=
  match r with PUT_draft _ _ _ => true | _ => false end.

Definition is_delete (r : Request) : bool :=
  match r with DELETE_draft _ => true | _ => false end.


(** ** The handler monad *)

(** A handler runs over the React store, the outside world and the log of
    what has been observed; it ends normally or with a thrown value. *)
Record Machine (W : Type) := {
  store : AppState;
  world : W;
  log : list Event
}.

Inductive Outcome (A : Type) :=
| Normal (a : A)
| Thrown (err : AxiosError).
Arguments Normal {A} a.
Arguments Thrown {A} err.

Definition M (W A : Type) : Type := Machine W -> Outcome A * Machine W.

Definition ret {W A} (a : A) : M W A := fun m => (Normal a, m).

Definition bind {W A B} (c : M W A) (k : A -> M W B) : M W B :=
  fun m =>
    match c m with
    | (Normal a, m') => k a m'
    | (Thrown e, m') => (Thrown e, m')
    end.

Declare Scope handler_scope.
Delimit Scope handler_scope with handler.
Notation "x <- c ;; k" := (bind c (fun x => k))
  (at level 61, c at next level, right associativity) : handler_scope.
Notation "c ;; k" := (bind c (fun _ => k))
  (at level 61, right associativity) : handler_scope.
Local Open Scope handler_scope.

(** [try { body } catch (err) { handler }] *)
Definition try_catch {W A} (body : M W A) (handler : AxiosError -> M W A) : M W A :=
  fun m =>
    match body m with
    | (Normal a, m') => (Normal a, m')
    | (Thrown e, m') => handler e m'
    end.

(** [try { body } finally { fin }]: [fin] runs on both exits and keeps the
    outcome of [body] unless it throws itself. *)
Definition try_finally {W A} (body : M W A) (fin : M W unit) : M W A :=
  fun m =>
    match body m with
    | (o, m') =>
        match fin m' with
        | (Normal _, m'') => (o, m'')
        | (Thrown e, m'') => (Thrown e, m'')
        end
    end.

(** A state setter call: the update is applied to the store. *)
Definition set {W} (f : AppState -> AppState) : M W unit :=
  fun m => (Normal tt, {| store := f (store m); world := world m; log := log m |}).

Definition emit {W} (e : Event) : M W unit :=
  fun m => (Normal tt, {| store := store m; world := world m; log := log m ++ [e] |}).

(** [await axios...]: the request is logged with the store as rendered while
    it is pending, the world answers, and a rejection is thrown. *)
Definition await {W A} (req : Request) (answer : W -> Settled A * W) : M W A :=
  fun m =>
    let (r, w') := answer (world m) in
    let m' := {| store := store m; world := w';
                 log := log m ++ [Await req (store m)] |} in
    match r with
    | Resolved a => (Normal a, m')
    | Rejected e => (Thrown e, m')
    end.

Definition console_error {W} (label : jsstring) (err : AxiosError) : M W unit :=
  emit (ConsoleError label err).

(** ** The component *)

Section Component.

Context {W : Type} (env : Env W).

Definition axios_get_drafts : M W (list Draft) :=
  await GET_drafts (http_get_drafts env).

Definition axios_post_drafts (t c : jsstring) : M W Draft :=
  await (POST_drafts t c) (http_post_drafts env t c).

Definition axios_put_draft (id t c : jsstring) : M W Draft :=
  await (PUT_draft id t c) (http_put_draft env id t c).

Definition axios_delete_draft (id : jsstring) : M W unit :=
  await (DELETE_draft id) (http_delete_draft env id).

Definition axios_post_generate (prompt : jsstring) (max_tokens : Z) : M W Generated :=
  await (POST_generate prompt max_tokens) (http_post_generate env prompt max_tokens).

(** [window.confirm(msg)] blocks on the user's answer. *)
Definition confirm (msg : jsstring) : M W bool :=
  fun m =>
    let (b, w') := window_confirm env msg (world m) in
    (Normal b, {| store := store m; world := w';
                  log := log m ++ [Confirm msg (store m)] |}).

Definition fetchDrafts : M W unit :=
  try_catch
    (set (setError None) ;;
     response <- axios_get_drafts ;;
     set (setDrafts response))
    (fun err =>
       set (setError (Some (js "Failed to fetch drafts"))) ;;
       console_error (js "Error fetching drafts:") err).

Definition createNewDraft : M W unit :=
  set (setCurrentDraft None) ;;
  set (setTitle []) ;;
  set (setContent []) ;;
  set (setError None).

(** The handlers below close over the values of the render they were
    created in: [r] is that render's state.  Reads of [title], [content],
    [currentDraft] and [aiPrompt] go to [r]; setter calls go to the store. *)
Definition saveDraft (r : AppState) : M W unit :=
  if negb (JsString.truthy (JsString.trim (title r))) then
    set (setError (Some (js "Please enter a title for your draft")))
  else
    try_finally
      (try_catch
         (set (setIsLoading true) ;;
          set (setError None) ;;
          match currentDraft r with
          | Some d =>
              response <- axios_put_draft (draft_id d) (title r) (content r) ;;
              set (setCurrentDraft (Some response))
          | None =>
              response <- axios_post_drafts (title r) (content r) ;;
              set (setCurrentDraft (Some response))
          end ;;
          fetchDrafts ;;
          set (setError None))
         (fun err =>
            set (setError (Some (js "Failed to save draft"))) ;;
            console_error (js "Error saving draft:") err))
      (set (setIsLoading false)).

Definition loadDraft (draft : Draft) : M W unit :=
  set (setCurrentDraft (Some draft)) ;;
  set (setTitle (draft_title draft)) ;;
  set (setContent (draft_content draft)) ;;
  set (setError None).

Definition deleteDraft (r : AppState) (draftId : jsstring) : M W unit :=
  ok <- confirm (js "Are you sure you want to delete this draft?") ;;
  if negb ok then ret tt
  else
    try_catch
      (set (setError None) ;;
       axios_delete_draft draftId ;;
       fetchDrafts ;;
       match currentDraft r with
       | Some d =>
           if JsString.eqb (draft_id d) draftId then createNewDraft else ret tt
       | None => ret tt
       end)
      (fun err =>
         set (setError (Some (js "Failed to delete draft"))) ;;
         console_error (js "Error deleting draft:") err).

Definition generateAIContent (r : AppState) : M W unit :=
  if negb (JsString.truthy (JsString.trim (aiPrompt r))) then
    set (setError (Some (js "Please enter a prompt for AI generation")))
  else
    try_finally
      (try_catch
         (set (setIsGenerating true) ;;
          set (setError None) ;;
          response <- axios_post_generate (aiPrompt r) 150 ;;
          let generatedText := generated_text response in
          set (setContentWith
                 (fun prevContent => prevContent ++ [JsString.LF; JsString.LF] ++ generatedText)) ;;
          set (setAiPrompt []))
         (fun err =>
            set (setError (Some (js "Failed to generate AI content"))) ;;
            console_error (js "Error generating AI content:") err))
      (set (setIsGenerating false)).

(** ** User actions *)

(** The five things the user can start from the page (the buttons, the
    draft list and the Enter key in the prompt field). *)
Inductive Action :=
| NewDraft
| Load (draft : Draft)
| Save
| Delete (draftId : jsstring)
| Generate.

(** The handler an action invokes, closed over the render [r]. *)
Definition handler (a : Action) (r : AppState) : M W unit :=
  match a with
  | NewDraft => createNewDraft
  | Load d => loadDraft d
  | Save => saveDraft r
  | Delete id => deleteDraft r id
  | Generate => generateAIContent r
  end.

(** The user acts on the page as currently rendered: the handler's closure
    holds the current store. *)
Definition fire (h : AppState -> M W unit) : M W unit :=
  fun m => h (store m) m.

(** One handler run to completion from store [st] and world [w], with
    nothing else interleaved. *)
Definition run (h : AppState -> M W unit) (st : AppState) (w : W) : Machine W :=
  snd (fire h {| store := st; world := w; log := [] |}).

(** [n] presses of Save in a row, each on the page as the previous one
    left it. *)
Fixpoint saves (n : nat) (m : Machine W) : Machine W :=
  match n with
  | O => m
  | S k => saves k (snd (fire saveDraft m))
  end.

End Component.

(** ** A small world to run the component in *)

(** An in-memory draft store, a generation service with one answer and a
    user with a fixed answer to the dialog.  It is used for concrete runs
    only; no statement about the component depends on it. *)
Module Mock.

Record World := {
  stored : list Draft;
  counter : N;
  reachable : bool;
  agrees : bool
}.

Definition network_error : AxiosError := js "Network Error".
Definition not_found : AxiosError := js "Request failed with status code 404".

Definition stamp (w : World) : jsstring := [48 + counter w]%N.

Definition tick (l : list Draft) (w : World) : World :=
  {| stored := l; counter := counter w + 1; reachable := reachable w;
     agrees := agrees w |}.

Definition has (id : jsstring) (w : World) : bool :=
  existsb (fun d => JsString.eqb (draft_id d) id) (stored w).

Definition get_drafts (w : World) : Settled (list Draft) * World :=
  if reachable w then (Resolved (stored w), w) else (Rejected network_error, w).

Definition post_drafts (t c : jsstring) (w : World) : Settled Draft * World :=
  if reachable w then
    let d := {| draft_id := js "d" ++ stamp w; draft_title := t;
                draft_content := c; created_at := stamp w;
                updated_at := stamp w |} in
    (Resolved d, tick (stored w ++ [d]) w)
  else (Rejected network_error, w).

Definition put_draft (id t c : jsstring) (w : World) : Settled Draft * World :=
  if reachable w then
    match find (fun d => JsString.eqb (draft_id d) id) (stored w) with
    | Some old =>
        let d := {| draft_id := id; draft_title := t; draft_content := c;
                    created_at := created_at old; updated_at := stamp w |} in
        (Resolved d,
         tick (map (fun x => if JsString.eqb (draft_id x) id then d else x)
                   (stored w)) w)
    | None => (Rejected not_found, w)
    end
  else (Rejected network_error, w).

Definition delete_draft (id : jsstring) (w : World) : Settled unit * World :=
  if reachable w then
    if has id w then
      (Resolved tt,
       tick (filter (fun x => negb (JsString.eqb (draft_id x) id)) (stored w)) w)
    else (Rejected not_found, w)
  else (Rejected network_error, w).

Definition post_generate (prompt : jsstring) (max_tokens : Z) (w : World)
  : Settled Generated * World :=
  if reachable w then
    (Resolved {| generated_text := js "An old silent pond" |}, w)
  else (Rejected network_error, w).

Definition env : Env World :=
  {| http_get_drafts := get_drafts;
     http_post_drafts := post_drafts;
     http_put_draft := put_draft;
     http_delete_draft := delete_draft;
     http_post_generate := post_generate;
     window_confirm := fun _ w => (agrees w, w) |}.

Definition note : Draft :=
  {| draft_id := js "d0"; draft_title := js "Notes";
     draft_content := js "first line"; created_at := js "0";
     updated_at := js "0" |}.

(** A store holding [note], reachable or not, with a user who agrees or
    not. *)
Definition world (up yes : bool) : World :=
  {| stored := [note]; counter := 1; reachable := up; agrees := yes |}.

(** A fresh page with a title and content typed in. *)
Definition typed : AppState :=
  setContent (js "C") (setTitle (js "T") initialState).

(** The page after [note] was loaded from the list. *)
Definition editing : AppState :=
  {| drafts := [note]; currentDraft := Some note; title := js "Notes";
     content := js "first line"; isLoading := false; error := None;
     aiPrompt := js "write a haiku"; isGenerating := false |}.

(** The same page still showing the error of an earlier failed save. *)
Definition stale : AppState :=
  setError (Some (js "Failed to save draft")) editing.

End Mock.

(** ** A world whose network gives out *)

(** The world of [Mock] behind a connection that carries a fixed number of
    requests and rejects every one after them.  Used for concrete runs only. *)
Module Flaky.

Definition World : Type := (nat * Mock.World)%type.

Definition limited {A} (h : Mock.World -> Settled A * Mock.World) (fw : World)
  : Settled A * World :=
  match fst fw with
  | O => (Rejected Mock.network_error, fw)
  | S k => let (r, w') := h (snd fw) in (r, (k, w'))
  end.

Definition env : Env World :=
  {| http_get_drafts := limited Mock.get_drafts;
     http_post_drafts := fun t c => limited (Mock.post_drafts t c);
     http_put_draft := fun id t c => limited (Mock.put_draft id t c);
     http_delete_draft := fun id => limited (Mock.delete_draft id);
     http_post_generate := fun p n => limited (Mock.post_generate p n);
     window_confirm := fun _ fw => (Mock.agrees (snd fw), fw) |}.

(** The store of [Mock.world], reachable for [n] more requests, with a user
    who agrees. *)
Definition world (n : nat) : World := (n, Mock.world true true).

End Flaky.

(** ** Vocabulary of the statements *)

Definition confirm_message : jsstring := js "Are you sure you want to delete this draft?".

(** The remote store answers an update with the draft it was asked to
    update: a draft's identity does not change across updates. *)
Definition keeps_identity {W} (env : Env W) : Prop :=
  forall id t c w d w',
    http_put_draft env id t c w = (Resolved d, w') -> draft_id d = id.





(** ** What the page shows *)

(** The parts of the JSX that depend on the state. *)
Module View.

(** [{error && (<div ...><p>{error}</p></div>)}]: the banner and its text;
    a null or empty error renders nothing. *)
Definition errorBanner (s : AppState) : option jsstring :=
  match error s with
  | Some msg => if JsString.truthy msg then Some msg else None
  | None => None
  end.

(** [drafts.length === 0 ? <p>No drafts yet...</p> : drafts.map(...)] *)
Definition showsNoDrafts (s : AppState) : bool :=
  match drafts s with [] => true | _ :: _ => false end.

(** The highlighted list entry: [currentDraft && currentDraft.id === draft.id]. *)
Definition isSelected (s : AppState) (draft : Draft) : bool :=
  match currentDraft s with
  | Some d => JsString.eqb (draft_id d) (draft_id draft)
  | None => false
  end.

(** [{currentDraft ? 'Edit Draft' : 'New Draft'}] *)
Definition heading (s : AppState) : jsstring :=
  match currentDraft s with
  | Some _ => js "Edit Draft"
  | None => js "New Draft"
  end.

(** The Save button: [disabled={isLoading}], [{isLoading ? 'Saving...' : 'Save'}]. *)
Definition saveDisabled (s : AppState) : bool := isLoading s.

Definition saveLabel (s : AppState) : jsstring :=
  if isLoading s then js "Saving..." else js "Save".


Definition generateLabel (s : AppState) : jsstring :=
  if isGenerating s then js "Generating..." else js "Generate".

End View.

(** ** Sessions *)

(** What the user does on the page: a click that starts one of the five
    handlers, or typing into one of the three inputs (their [onChange]
    passes [e.target.value] to the setter). *)
Inductive Gesture :=
| Click (a : Action)
| TypeTitle (v : jsstring)
| TypeContent (v : jsstring)
| TypePrompt (v : jsstring).

Definition react {W} (env : Env W) (g : Gesture) (r : AppState) : M W unit :=
  match g with
  | Click a => handler env a r
  | TypeTitle v => set (setTitle v)
  | TypeContent v => set (setContent v)
  | TypePrompt v => set (setAiPrompt v)
  end.

(** The gestures one after the other, each on the page as the one before
    left it. *)
Fixpoint play {W} (env : Env W) (gs : list Gesture) (m : Machine W) : Machine W :=
  match gs with
  | [] => m
  | g :: rest => play env rest (snd (fire (react env g) m))
  end.

(** A machine with nothing observed yet. *)
Definition boot {W} (st : AppState) (w : W) : Machine W :=
  {| store := st; world := w; log := [] |}.

(** The mount effect: [useEffect(() => { fetchDrafts(); }, [])]. *)
Definition mount {W} (env : Env W) (w : W) : Machine W :=
  run (fun _ => fetchDrafts env) initialState w.

(** The six messages the handlers put in the error slot. *)
Definition messages : list jsstring :=
  [ js "Failed to fetch drafts";
    js "Please enter a title for your draft";
    js "Failed to save draft";
    js "Failed to delete draft";
    js "Please enter a prompt for AI generation";
    js "Failed to generate AI content" ].

(** The error slot is empty or holds one of the six messages. *)
Definition error_known (s : AppState) : Prop :=
  match error s with
  | None => True
  | Some msg => In msg messages
  end.

(** The store as rendered while each request was in flight. *)
Definition shown_in_flight (l : list Event) : list AppState :=
  flat_map (fun e => match e with Await _ s => [s] | _ => [] end) l.

(** Neither button is busy. *)
Definition idle (s : AppState) : Prop :=
  isLoading s = false /\ isGenerating s = false.

(** ** JavaScript string facts *)

Unset Implicit Arguments.

Module JsStringFacts.
Import JsString.

Lemma trimStart_blank s : blank s -> trimStart s = [].
Proof.
  induction 1 as [|c r Hc _ IH]; simpl; [reflexivity|].
  rewrite Hc. exact IH.
Qed.

Lemma trimStart_nil_blank s : trimStart s = [] -> blank s.
Proof.
  induction s as [|c r IH]; simpl; intros H; [constructor|].
  destruct (is_white_space c) eqn:Hc; [|discriminate].
  constructor; [exact Hc | exact (IH H)].
Qed.

Lemma trimStart_head s c r : trimStart s = c :: r -> is_white_space c = false.
Proof.
  induction s as [|x s IH]; simpl; [discriminate|].
  destruct (is_white_space x) eqn:Hx; [exact IH|].
  intros H. injection H as -> _. exact Hx.
Qed.

Lemma blank_rev s : blank (rev s) -> blank s.
Proof.
  unfold blank. rewrite !Forall_forall. intros H c Hc.
  apply H. apply in_rev. rewrite rev_involutive. exact Hc.
Qed.

Lemma trim_blank s : blank s -> trim s = [].
Proof.
  intros H. unfold trim, trimEnd. rewrite (trimStart_blank _ H). reflexivity.
Qed.

(** [s.trim()] is empty exactly when [s] is empty or all white space. *)
Lemma trim_nil_iff s : trim s = [] <-> blank s.
Proof.
  split; [|apply trim_blank].
  unfold trim, trimEnd. intros H.
  apply (f_equal (@rev N)) in H. rewrite rev_involutive in H. simpl in H.
  apply trimStart_nil_blank, blank_rev in H.
  destruct (trimStart s) as [|c r] eqn:E.
  - apply trimStart_nil_blank. exact E.
  - apply trimStart_head in E. inversion H; subst. congruence.
Qed.

Lemma truthy_trim_blank s : blank s -> truthy (trim s) = false.
Proof. intros H. rewrite (trim_blank _ H). reflexivity. Qed.

Lemma truthy_trim s : trim s <> [] -> truthy (trim s) = true.
Proof. destruct (trim s); [congruence | reflexivity]. Qed.

Lemma eqb_refl a : eqb a a = true.
Proof. induction a as [|x a IH]; simpl; [|rewrite N.eqb_refl]; auto. Qed.

Lemma eqb_eq a b : eqb a b = true <-> a = b.
Proof.
  split; [|intros ->; apply eqb_refl].
  revert b. induction a as [|x a IH]; intros [|y b]; simpl; try discriminate; auto.
  intros H. apply andb_prop in H as [Hx Hr].
  apply N.eqb_eq in Hx. f_equal; auto.
Qed.

Lemma eqb_neq a b : a <> b -> eqb a b = false.
Proof.
  intros H. destruct (eqb a b) eqn:E; [|reflexivity].
  apply eqb_eq in E. contradiction.
Qed.

Lemma lines_not_nil s : lines s <> [].
Proof.
  induction s as [|c r IH]; simpl; [discriminate|].
  destruct (c =? LF)%N; [discriminate|].
  destruct (lines r); discriminate.
Qed.

(** Splitting at a line feed splits the list of lines. *)
Lemma lines_app_LF a b : lines (a ++ LF :: b) = lines a ++ lines b.
Proof.
  induction a as [|c r IH]; simpl.
  - reflexivity.
  - rewrite IH. destruct (c =? LF)%N; [reflexivity|].
    pose proof (lines_not_nil r) as Hr.
    destruct (lines r) as [|l ls]; [contradiction | reflexivity].
Qed.

(** Two line feeds put exactly one empty line between two texts. *)
Lemma lines_blank_line a b :
  lines (a ++ [LF; LF] ++ b) = lines a ++ [[]] ++ lines b.
Proof.
  change (a ++ [LF; LF] ++ b) with (a ++ LF :: ([] ++ LF :: b)).
  rewrite !lines_app_LF. reflexivity.
Qed.

End JsStringFacts.

(** ** Properties of the handlers *)

(** Unfold a handler run down to the answers of the world. *)
Ltac unfold_run :=
  unfold run, fire, saveDraft, deleteDraft, generateAIContent, fetchDrafts,
    createNewDraft, loadDraft, handler,
    axios_get_drafts, axios_post_drafts, axios_put_draft, axios_delete_draft,
    axios_post_generate, confirm, console_error,
    try_finally, try_catch, bind, ret, set, emit, await; simpl.

(** Case analysis on the next answer of the world. *)
Ltac answer :=
  match goal with
  | |- context [http_get_drafts ?e ?w] =>
      destruct (http_get_drafts e w) as [[?l|?err] ?w] eqn:?; simpl
  | |- context [http_post_drafts ?e ?t ?c ?w] =>
      destruct (http_post_drafts e t c w) as [[?d|?err] ?w] eqn:?; simpl
  | |- context [http_put_draft ?e ?i ?t ?c ?w] =>
      destruct (http_put_draft e i t c w) as [[?d|?err] ?w] eqn:?; simpl
  | |- context [http_delete_draft ?e ?i ?w] =>
      destruct (http_delete_draft e i w) as [[[]|?err] ?w] eqn:?; simpl
  | |- context [http_post_generate ?e ?p ?n ?w] =>
      destruct (http_post_generate e p n w) as [[?g|?err] ?w] eqn:?; simpl
  | |- context [window_confirm ?e ?msg ?w] =>
      destruct (window_confirm e msg w) as [[|] ?w] eqn:?; simpl
  end.

Section Properties.

Context {W : Type} (env : Env W).

(** C7. A save whose title is empty or all white space sets the title
    validation message in the error slot, sends nothing to the network
    (the log stays empty) and changes nothing else in the store. *)
Theorem C7_save_blank_title_rejected (st : AppState) (w : W) :
  JsString.blank (title st) ->
  store (run (saveDraft env) st w)
    = setError (Some (js "Please enter a title for your draft")) st
  /\ requests (log (run (saveDraft env) st w)) = []
  /\ log (run (saveDraft env) st w) = []
  /\ world (run (saveDraft env) st w) = w.
Proof.
  intros Hblank. unfold run, fire, saveDraft. simpl.
  rewrite (JsStringFacts.truthy_trim_blank _ Hblank). simpl.
  repeat split; reflexivity.
Qed.

(** C8. A generation whose prompt is empty or all white space sets the
    prompt validation message in the error slot, sends nothing to the
    network and leaves the content buffer as it was. *)
Theorem C8_generate_blank_prompt_rejected (st : AppState) (w : W) :
  JsString.blank (aiPrompt st) ->
  error (store (run (generateAIContent env) st w))
    = Some (js "Please enter a prompt for AI generation")
  /\ requests (log (run (generateAIContent env) st w)) = []
  /\ content (store (run (generateAIContent env) st w)) = content st
  /\ store (run (generateAIContent env) st w)
     = setError (Some (js "Please enter a prompt for AI generation")) st.
Proof.
  intros Hblank. unfold run, fire, generateAIContent. simpl.
  rewrite (JsStringFacts.truthy_trim_blank _ Hblank). simpl.
  repeat split; reflexivity.
Qed.

(** C10. When the user declines the confirmation dialog, [deleteDraft]
    sends no request and leaves the whole store (draft list, binding, both
    buffers, error slot) as it was. *)
Theorem C10_delete_declined_is_noop (st : AppState) (w w1 : W) (draftId : jsstring) :
  window_confirm env confirm_message w = (false, w1) ->
  requests (log (run (fun r => deleteDraft env r draftId) st w)) = []
  /\ store (run (fun r => deleteDraft env r draftId) st w) = st
  /\ drafts (store (run (fun r => deleteDraft env r draftId) st w)) = drafts st
  /\ currentDraft (store (run (fun r => deleteDraft env r draftId) st w)) = currentDraft st
  /\ title (store (run (fun r => deleteDraft env r draftId) st w)) = title st
  /\ content (store (run (fun r => deleteDraft env r draftId) st w)) = content st
  /\ error (store (run (fun r => deleteDraft env r draftId) st w)) = error st.
Proof.
  intros Hno. unfold_run. fold confirm_message. rewrite Hno. simpl.
  repeat split; reflexivity.
Qed.

(** C1. A save of an unbound session whose trimmed title is not empty
    sends exactly one create request, carrying the title and content
    buffers as they are, and no update; when that request succeeds the
    session adopts the returned draft and is bound to its id. *)
Theorem C1_save_unbound_creates_once (st : AppState) (w : W) :
  currentDraft st = None ->
  JsString.trim (title st) <> [] ->
  filter is_create (requests (log (run (saveDraft env) st w)))
    = [POST_drafts (title st) (content st)]
  /\ filter is_update (requests (log (run (saveDraft env) st w))) = []
  /\ hd_error (requests (log (run (saveDraft env) st w)))
     = Some (POST_drafts (title st) (content st))
  /\ forall d w1,
       http_post_drafts env (title st) (content st) w = (Resolved d, w1) ->
       currentDraft (store (run (saveDraft env) st w)) = Some d
       /\ boundId (store (run (saveDraft env) st w)) = Some (draft_id d).
Proof.
  intros Hnull Hvalid. unfold run, fire, saveDraft. simpl.
  rewrite (JsStringFacts.truthy_trim _ Hvalid), Hnull. unfold_run.
  answer; [answer|];
    (split; [reflexivity|]); (split; [reflexivity|]); (split; [reflexivity|]);
    intros dd ww Hres; inversion Hres; subst; split; reflexivity.
Qed.

(** C3. When the request a save sends (create or update) is rejected, the
    save reports "Failed to save draft" in the error slot and on the
    console, sends nothing further, and leaves the binding, both buffers
    and the draft list as they were. *)
Theorem C3_save_failure_keeps_binding (st : AppState) (w w1 : W) (err : AxiosError) :
  JsString.trim (title st) <> [] ->
  match currentDraft st with
  | Some d => http_put_draft env (draft_id d) (title st) (content st) w
  | None => http_post_drafts env (title st) (content st) w
  end = (Rejected err, w1) ->
  error (store (run (saveDraft env) st w)) = Some (js "Failed to save draft")
  /\ In (ConsoleError (js "Error saving draft:") err) (log (run (saveDraft env) st w))
  /\ currentDraft (store (run (saveDraft env) st w)) = currentDraft st
  /\ boundId (store (run (saveDraft env) st w)) = boundId st
  /\ title (store (run (saveDraft env) st w)) = title st
  /\ content (store (run (saveDraft env) st w)) = content st
  /\ drafts (store (run (saveDraft env) st w)) = drafts st
  /\ List.length (requests (log (run (saveDraft env) st w))) = 1
  /\ isLoading (store (run (saveDraft env) st w)) = false.
Proof.
  intros Hvalid Hrej. unfold run, fire, saveDraft, boundId. simpl.
  rewrite (JsStringFacts.truthy_trim _ Hvalid).
  destruct (currentDraft st) as [d|] eqn:Hcur; unfold_run; rewrite Hrej; simpl;
    rewrite ?Hcur; (repeat split; try reflexivity); right; left; reflexivity.
Qed.

(** C4. When the generation request succeeds, the content buffer becomes
    the old content, two line feeds, and the returned text: the old content
    is a prefix of the new one, the lines of the new content are the old
    lines, exactly one empty line, and the lines of the returned text, and
    the prompt field is emptied. *)
Theorem C4_generate_appends_after_blank_line
  (st : AppState) (w w1 : W) (g : Generated) :
  JsString.trim (aiPrompt st) <> [] ->
  http_post_generate env (aiPrompt st) 150 w = (Resolved g, w1) ->
  content (store (run (generateAIContent env) st w))
    = content st ++ [JsString.LF; JsString.LF] ++ generated_text g
  /\ JsString.lines (content (store (run (generateAIContent env) st w)))
     = JsString.lines (content st) ++ [[]] ++ JsString.lines (generated_text g)
  /\ firstn (List.length (content st)) (content (store (run (generateAIContent env) st w)))
     = content st
  /\ aiPrompt (store (run (generateAIContent env) st w)) = []
  /\ requests (log (run (generateAIContent env) st w))
     = [POST_generate (aiPrompt st) 150].
Proof.
  intros Hvalid Hok. unfold run, fire, generateAIContent. simpl.
  rewrite (JsStringFacts.truthy_trim _ Hvalid). unfold_run. rewrite Hok. simpl.
  split; [reflexivity|]. split; [apply JsStringFacts.lines_blank_line|].
  split; [|split; reflexivity].
  rewrite firstn_app, firstn_all, Nat.sub_diag. simpl. apply app_nil_r.
Qed.

(** C9. When the generation request is rejected, the handler reports
    "Failed to generate AI content" and leaves the content buffer and the
    prompt field as they were. *)
Theorem C9_generate_failure_keeps_buffers
  (st : AppState) (w w1 : W) (err : AxiosError) :
  JsString.trim (aiPrompt st) <> [] ->
  http_post_generate env (aiPrompt st) 150 w = (Rejected err, w1) ->
  error (store (run (generateAIContent env) st w))
    = Some (js "Failed to generate AI content")
  /\ In (ConsoleError (js "Error generating AI content:") err)
        (log (run (generateAIContent env) st w))
  /\ content (store (run (generateAIContent env) st w)) = content st
  /\ aiPrompt (store (run (generateAIContent env) st w)) = aiPrompt st
  /\ isGenerating (store (run (generateAIContent env) st w)) = false.
Proof.
  intros Hvalid Hrej. unfold run, fire, generateAIContent. simpl.
  rewrite (JsStringFacts.truthy_trim _ Hvalid). unfold_run. rewrite Hrej. simpl.
  repeat split; try reflexivity. right; left; reflexivity.
Qed.

(** C6. Once the user has confirmed, [deleteDraft] sends a delete request
    for the given id.  When it succeeds, the draft list is fetched again
    and, if the session was bound to that id, the session is reset to
    unbound with empty buffers (and is untouched otherwise).  When it is
    rejected, "Failed to delete draft" is reported, nothing further is
    sent, and the draft list and the session stay as they were. *)
Theorem C6_delete_confirmed (st : AppState) (w w1 : W) (draftId : jsstring) :
  window_confirm env confirm_message w = (true, w1) ->
  let m := run (fun r => deleteDraft env r draftId) st w in
  hd_error (requests (log m)) = Some (DELETE_draft draftId)
  /\ filter is_delete (requests (log m)) = [DELETE_draft draftId]
  /\ (forall w2,
        http_delete_draft env draftId w1 = (Resolved tt, w2) ->
        requests (log m) = [DELETE_draft draftId; GET_drafts]
        /\ (forall l w3, http_get_drafts env w2 = (Resolved l, w3) ->
                        drafts (store m) = l)
        /\ (boundId st = Some draftId ->
            currentDraft (store m) = None
            /\ title (store m) = [] /\ content (store m) = [])
        /\ (boundId st <> Some draftId ->
            currentDraft (store m) = currentDraft st
            /\ title (store m) = title st /\ content (store m) = content st))
  /\ (forall err w2,
        http_delete_draft env draftId w1 = (Rejected err, w2) ->
        error (store m) = Some (js "Failed to delete draft")
        /\ In (ConsoleError (js "Error deleting draft:") err) (log m)
        /\ requests (log m) = [DELETE_draft draftId]
        /\ drafts (store m) = drafts st
        /\ currentDraft (store m) = currentDraft st
        /\ title (store m) = title st /\ content (store m) = content st).
Proof.
  intros Hyes m. subst m. unfold boundId. unfold_run. fold confirm_message.
  rewrite Hyes. simpl.
  destruct (http_delete_draft env draftId w1) as [[[]|err0] w2] eqn:Hdel; simpl.
  - (* the delete request succeeded *)
    destruct (http_get_drafts env w2) as [[l|err1] w3] eqn:Hget; simpl;
      destruct (currentDraft st) as [d|] eqn:Hcur; simpl;
      try destruct (JsString.eqb (draft_id d) draftId) eqn:Heq; simpl;
      (split; [reflexivity|]); (split; [reflexivity|]);
      (split; [|intros ? ? Hbad; discriminate Hbad]);
      intros w2' Hok; inversion Hok; subst w2';
      (split; [reflexivity|]);
      (split; [intros l' w3' Hl; rewrite Hget in Hl; inversion Hl; reflexivity|]);
      split; intros Hb;
      try (split; [|split]; (reflexivity || assumption));
      try discriminate Hb;
      try (inversion Hb; subst;
           rewrite JsStringFacts.eqb_refl in Heq; discriminate Heq);
      try (apply JsStringFacts.eqb_eq in Heq; subst; contradiction Hb; reflexivity).
  - (* the delete request was rejected *)
    (split; [reflexivity|]); (split; [reflexivity|]);
    (split; [intros ? Hbad; discriminate Hbad|]).
    intros ? ? Hrej. inversion Hrej; subst.
    repeat split; try reflexivity. right; right; left; reflexivity.
Qed.

Lemma requests_app (l1 l2 : list Event) :
  requests (l1 ++ l2) = requests l1 ++ requests l2.
Proof. unfold requests. apply flat_map_app. Qed.

(** One save of a bound session with a valid title, from any machine. *)
Lemma saveDraft_bound_step (m : Machine W) (d : Draft) :
  currentDraft (store m) = Some d ->
  JsString.trim (title (store m)) <> [] ->
  exists evs d',
    log (snd (fire (saveDraft env) m)) = log m ++ evs
    /\ filter is_create (requests evs) = []
    /\ filter is_update (requests evs)
       = [PUT_draft (draft_id d) (title (store m)) (content (store m))]
    /\ title (store (snd (fire (saveDraft env) m))) = title (store m)
    /\ content (store (snd (fire (saveDraft env) m))) = content (store m)
    /\ currentDraft (store (snd (fire (saveDraft env) m))) = Some d'
    /\ (keeps_identity env -> draft_id d' = draft_id d).
Proof.
  intros Hcur Hvalid. unfold fire, saveDraft.
  rewrite (JsStringFacts.truthy_trim _ Hvalid), Hcur. unfold_run.
  destruct (http_put_draft env (draft_id d) (title (store m)) (content (store m))
              (world m)) as [[d1|err] w1] eqn:Hput; simpl.
  - destruct (http_get_drafts env w1) as [[l|err] w2]; simpl;
      eexists _, d1; (split; [rewrite <- !app_assoc; reflexivity|]); simpl;
      do 5 (split; [reflexivity|]); intros Hid; exact (Hid _ _ _ _ _ _ Hput).
  - eexists _, d. split; [rewrite <- !app_assoc; reflexivity|]. simpl.
    do 4 (split; [reflexivity|]). split; [exact Hcur | reflexivity].
Qed.

(** Any number of saves in a row of a bound session with a valid title. *)
Lemma saves_bound (n : nat) :
  forall (m : Machine W) (d : Draft),
    currentDraft (store m) = Some d ->
    JsString.trim (title (store m)) <> [] ->
    exists evs d',
      log (saves env n m) = log m ++ evs
      /\ filter is_create (requests evs) = []
      /\ List.length (filter is_update (requests evs)) = n
      /\ currentDraft (store (saves env n m)) = Some d'
      /\ (keeps_identity env ->
          filter is_update (requests evs)
            = repeat (PUT_draft (draft_id d) (title (store m)) (content (store m))) n
          /\ draft_id d' = draft_id d).
Proof.
  induction n as [|n IH]; intros m d Hcur Hvalid; simpl.
  - exists [], d. rewrite app_nil_r.
    do 3 (split; [reflexivity|]). split; [exact Hcur|].
    intros _. split; reflexivity.
  - destruct (saveDraft_bound_step m d Hcur Hvalid)
      as (evs & d1 & Hlog & Hc & Hu & Ht & Hcnt & Hcur1 & Hid).
    assert (Hvalid1 : JsString.trim (title (store (snd (fire (saveDraft env) m)))) <> [])
      by (rewrite Ht; exact Hvalid).
    destruct (IH _ d1 Hcur1 Hvalid1) as (evs' & d2 & Hlog' & Hc' & Hu' & Hcur2 & Hid').
    exists (evs ++ evs'), d2.
    rewrite Hlog', Hlog, requests_app, !filter_app, Hc, Hc', Hu, <- app_assoc.
    split; [reflexivity|]. split; [reflexivity|].
    split; [simpl; rewrite Hu'; reflexivity|]. split; [exact Hcur2|].
    intros Hkeeps. destruct (Hid' Hkeeps) as [Hall Hd2].
    split; [|rewrite Hd2; exact (Hid Hkeeps)].
    rewrite Hall, Ht, Hcnt, (Hid Hkeeps). reflexivity.
Qed.

(** C2. A save of a session bound to draft [d] with a valid title sends
    exactly one update, addressed to [d]'s id and carrying the buffers, and
    no create.  Any number of saves in a row send no create and one update
    each; when the store answers an update with the draft it was asked to
    update, every one of them is addressed to that same id and the session
    stays bound to it. *)
Theorem C2_save_bound_updates_never_creates (st : AppState) (w : W) (d : Draft) :
  currentDraft st = Some d ->
  JsString.trim (title st) <> [] ->
  (filter is_update (requests (log (run (saveDraft env) st w)))
     = [PUT_draft (draft_id d) (title st) (content st)]
   /\ hd_error (requests (log (run (saveDraft env) st w)))
      = Some (PUT_draft (draft_id d) (title st) (content st))
   /\ filter is_create (requests (log (run (saveDraft env) st w))) = [])
  /\ forall n,
       let m := saves env n {| store := st; world := w; log := [] |} in
       filter is_create (requests (log m)) = []
       /\ List.length (filter is_update (requests (log m))) = n
       /\ (exists d', currentDraft (store m) = Some d')
       /\ (keeps_identity env ->
           filter is_update (requests (log m))
             = repeat (PUT_draft (draft_id d) (title st) (content st)) n
           /\ boundId (store m) = Some (draft_id d)).
Proof.
  intros Hcur Hvalid. split.
  - unfold run, fire, saveDraft. simpl.
    rewrite (JsStringFacts.truthy_trim _ Hvalid), Hcur. unfold_run.
    answer; [answer|]; repeat split; reflexivity.
  - intros n m. subst m.
    destruct (saves_bound n {| store := st; world := w; log := [] |} d Hcur Hvalid)
      as (evs & d' & Hlog & Hc & Hu & Hcur' & Hid).
    simpl in Hlog. rewrite Hlog.
    split; [exact Hc|]. split; [exact Hu|]. split; [exists d'; exact Hcur'|].
    intros Hkeeps. destruct (Hid Hkeeps) as [Hall Hd'].
    split; [exact Hall|]. unfold boundId. rewrite Hcur'. simpl. rewrite Hd'. reflexivity.
Qed.





End Properties.

(** ** Further properties: refresh, failures, busy flags *)

(** Case analysis on the next answer of the world, for any world state. *)
Ltac respond :=
  match goal with
  | |- context [http_get_drafts ?e ?x] =>
      destruct (http_get_drafts e x) as [[?l|?err] ?w] eqn:?; simpl
  | |- context [http_post_drafts ?e ?t ?c ?x] =>
      destruct (http_post_drafts e t c x) as [[?d|?err] ?w] eqn:?; simpl
  | |- context [http_put_draft ?e ?i ?t ?c ?x] =>
      destruct (http_put_draft e i t c x) as [[?d|?err] ?w] eqn:?; simpl
  | |- context [http_delete_draft ?e ?i ?x] =>
      destruct (http_delete_draft e i x) as [[[]|?err] ?w] eqn:?; simpl
  | |- context [http_post_generate ?e ?p ?n ?x] =>
      destruct (http_post_generate e p n x) as [[?g|?err] ?w] eqn:?; simpl
  | |- context [window_confirm ?e ?msg ?x] =>
      destruct (window_confirm e msg x) as [[|] ?w] eqn:?; simpl
  end.

Section Refresh.

Context {W : Type} (env : Env W).

(** X1. When the list request succeeds, [fetchDrafts] replaces the draft list
    by the answer as a whole and empties the error slot; it sends that one
    request and touches nothing else.  On mount the page then holds exactly
    the server's list, and the "No drafts yet" text shows exactly when that
    list is empty. *)
Theorem X1_fetchDrafts_replaces_list (st : AppState) (w w1 : W) (l : list Draft) :
  http_get_drafts env w = (Resolved l, w1) ->
  store (run (fun _ => fetchDrafts env) st w) = setDrafts l (setError None st)
  /\ requests (log (run (fun _ => fetchDrafts env) st w)) = [GET_drafts]
  /\ store (mount env w) = setDrafts l initialState
  /\ (View.showsNoDrafts (store (mount env w)) = true <-> l = []).
Proof.
  intros Hget. unfold mount. unfold_run. rewrite Hget. simpl.
  do 3 (split; [reflexivity|]).
  unfold View.showsNoDrafts. simpl.
  destruct l; split; intros H; (reflexivity || discriminate H).
Qed.

(** X2. When the list request is rejected, [fetchDrafts] keeps the draft
    list it had, puts "Failed to fetch drafts" in the error slot, logs the
    failure on the console and sends nothing further. *)
Theorem X2_fetchDrafts_failure_keeps_list
  (st : AppState) (w w1 : W) (err : AxiosError) :
  http_get_drafts env w = (Rejected err, w1) ->
  store (run (fun _ => fetchDrafts env) st w)
    = setError (Some (js "Failed to fetch drafts")) st
  /\ drafts (store (run (fun _ => fetchDrafts env) st w)) = drafts st
  /\ log (run (fun _ => fetchDrafts env) st w)
     = [Await GET_drafts (setError None st);
        ConsoleError (js "Error fetching drafts:") err].
Proof.
  intros Hget. unfold_run. rewrite Hget. simpl.
  repeat split; reflexivity.
Qed.

(** X3. No rejected request escapes a handler.  With the answers of the
    world shaped as the interface gives them (a request is rejected, or
    resolves with a body of the documented type, so titles and contents are
    strings), every handler returns normally whichever requests are
    rejected: each rejection is caught by the [try] of the handler that
    awaited it, and [fetchDrafts] catches its own inside save and delete. *)
Theorem X3_no_rejection_escapes_a_handler (g : Gesture) (r : AppState) (m : Machine W) :
  fst (react env g r m) = Normal tt /\ fst (fetchDrafts env m) = Normal tt.
Proof.
  split.
  - destruct g as [[|d| |id|]|v|v|v]; unfold react, handler; unfold_run;
      try reflexivity.
    + destruct (JsString.truthy (JsString.trim (title r))); simpl; [|reflexivity].
      destruct (currentDraft r) as [d|]; simpl; repeat respond; reflexivity.
    + respond; [|reflexivity].
      destruct (currentDraft r) as [d|]; simpl;
        try destruct (JsString.eqb (draft_id d) id); simpl;
        repeat respond; reflexivity.
    + destruct (JsString.truthy (JsString.trim (aiPrompt r))); simpl; [|reflexivity].
      repeat respond; reflexivity.
  - unfold_run. respond; reflexivity.
Qed.

(** X4. When the write of a save succeeds but the refresh after it is
    rejected, the save stands: the session adopts the returned draft, the
    draft list keeps its previous content, and the "Failed to fetch drafts"
    message is overwritten by the closing [setError(null)], so no banner is
    shown and the failure is visible on the console only. *)
Theorem X4_save_swallows_refresh_failure
  (st : AppState) (w w1 w2 : W) (d : Draft) (err : AxiosError) :
  JsString.trim (title st) <> [] ->
  match currentDraft st with
  | Some c => http_put_draft env (draft_id c) (title st) (content st) w
  | None => http_post_drafts env (title st) (content st) w
  end = (Resolved d, w1) ->
  http_get_drafts env w1 = (Rejected err, w2) ->
  currentDraft (store (run (saveDraft env) st w)) = Some d
  /\ drafts (store (run (saveDraft env) st w)) = drafts st
  /\ error (store (run (saveDraft env) st w)) = None
  /\ View.errorBanner (store (run (saveDraft env) st w)) = None
  /\ In (ConsoleError (js "Error fetching drafts:") err)
        (log (run (saveDraft env) st w)).
Proof.
  intros Hvalid Hwrite Hget. unfold View.errorBanner, run, fire, saveDraft. simpl.
  rewrite (JsStringFacts.truthy_trim _ Hvalid).
  destruct (currentDraft st) as [c|]; unfold_run; rewrite Hwrite; simpl;
    rewrite Hget; simpl;
    (repeat split; try reflexivity); right; right; left; reflexivity.
Qed.

(** X5. When a confirmed delete succeeds but the refresh after it is
    rejected, the draft list keeps its previous content (the deleted draft
    included).  The "Failed to fetch drafts" message stays in the error slot
    when the deleted draft was not the bound one, and is emptied by the
    session reset when it was. *)
Theorem X5_delete_refresh_failure
  (st : AppState) (w w1 w2 w3 : W) (draftId : jsstring) (err : AxiosError) :
  window_confirm env confirm_message w = (true, w1) ->
  http_delete_draft env draftId w1 = (Resolved tt, w2) ->
  http_get_drafts env w2 = (Rejected err, w3) ->
  drafts (store (run (fun r => deleteDraft env r draftId) st w)) = drafts st
  /\ (boundId st = Some draftId ->
      error (store (run (fun r => deleteDraft env r draftId) st w)) = None)
  /\ (boundId st <> Some draftId ->
      error (store (run (fun r => deleteDraft env r draftId) st w))
        = Some (js "Failed to fetch drafts")).
Proof.
  intros Hyes Hdel Hget. unfold boundId. unfold_run. fold confirm_message.
  rewrite Hyes. simpl. rewrite Hdel. simpl. rewrite Hget. simpl.
  destruct (currentDraft st) as [d|]; simpl.
  - destruct (JsString.eqb (draft_id d) draftId) eqn:Heq; simpl.
    + apply JsStringFacts.eqb_eq in Heq.
      split; [reflexivity|]. split; [reflexivity|].
      intros Hne. contradiction Hne. rewrite Heq. reflexivity.
    + split; [reflexivity|]. split; [|reflexivity].
      intros Hb. inversion Hb as [Hid]. rewrite Hid, JsStringFacts.eqb_refl in Heq.
      discriminate Heq.
  - split; [reflexivity|]. split; [intros Hb; discriminate Hb | reflexivity].
Qed.

(** X6. While any request of a save is in flight the Save button is disabled
    and reads "Saving...".  A save that passed validation leaves the button
    enabled again on every path; a save that failed validation does not
    touch the flag. *)
Theorem X6_save_busy_while_in_flight (st : AppState) (w : W) :
  Forall (fun s => View.saveDisabled s = true /\ View.saveLabel s = js "Saving...")
         (shown_in_flight (log (run (saveDraft env) st w)))
  /\ (JsString.trim (title st) <> [] ->
      isLoading (store (run (saveDraft env) st w)) = false)
  /\ (JsString.blank (title st) ->
      isLoading (store (run (saveDraft env) st w)) = isLoading st).
Proof.
  unfold run, fire, saveDraft. simpl. split; [|split].
  - destruct (JsString.truthy (JsString.trim (title st))); simpl; [|constructor].
    unfold_run. destruct (currentDraft st) as [d|]; simpl;
      repeat respond; repeat constructor.
  - intros Hvalid. rewrite (JsStringFacts.truthy_trim _ Hvalid). unfold_run.
    destruct (currentDraft st) as [d|]; simpl; repeat respond; reflexivity.
  - intros Hblank. rewrite (JsStringFacts.truthy_trim_blank _ Hblank). reflexivity.
Qed.


End Refresh.

(** ** Further properties: frames, validation, sessions *)

Section Sessions.

Context {W : Type} (env : Env W).

(** X8. A save never changes the title buffer, the content buffer, the
    prompt or the Generate flag, on any path: in particular the buffers keep
    what the user typed even when the store answers with a draft whose title
    or content differ. *)
Theorem X8_save_keeps_buffers (st : AppState) (w : W) :
  title (store (run (saveDraft env) st w)) = title st
  /\ content (store (run (saveDraft env) st w)) = content st
  /\ aiPrompt (store (run (saveDraft env) st w)) = aiPrompt st
  /\ isGenerating (store (run (saveDraft env) st w)) = isGenerating st.
Proof.
  unfold_run.
  destruct (JsString.truthy (JsString.trim (title st))); simpl;
    [|repeat split; reflexivity].
  destruct (currentDraft st) as [d|]; simpl;
    repeat respond; repeat split; reflexivity.
Qed.

(** X9. A generation never changes the draft list, the binding, the title
    buffer or the Save flag, and sends at most one request: the prompt as
    typed (not trimmed) with [max_tokens] 150. *)
Theorem X9_generate_frame (st : AppState) (w : W) :
  drafts (store (run (generateAIContent env) st w)) = drafts st
  /\ currentDraft (store (run (generateAIContent env) st w)) = currentDraft st
  /\ title (store (run (generateAIContent env) st w)) = title st
  /\ isLoading (store (run (generateAIContent env) st w)) = isLoading st
  /\ (requests (log (run (generateAIContent env) st w)) = []
      \/ requests (log (run (generateAIContent env) st w))
         = [POST_generate (aiPrompt st) 150]).
Proof.
  unfold_run.
  destruct (JsString.truthy (JsString.trim (aiPrompt st))); simpl.
  - respond; (do 4 (split; [reflexivity|])); right; reflexivity.
  - do 4 (split; [reflexivity|]). left; reflexivity.
Qed.

(** X10. The title check of a save is exact: a save sends nothing to the
    network if and only if the title is empty or all white space. *)
Theorem X10_save_sends_iff_title_not_blank (st : AppState) (w : W) :
  requests (log (run (saveDraft env) st w)) = [] <-> JsString.blank (title st).
Proof.
  split.
  - intros Hnone. apply JsStringFacts.trim_nil_iff.
    destruct (JsString.trim (title st)) as [|c r] eqn:Htrim; [reflexivity|].
    exfalso. revert Hnone. unfold run, fire, saveDraft. simpl. rewrite Htrim.
    unfold_run.
    destruct (currentDraft st) as [d|]; simpl; repeat respond; discriminate.
  - intros Hblank. unfold run, fire, saveDraft. simpl.
    rewrite (JsStringFacts.truthy_trim_blank _ Hblank). reflexivity.
Qed.

(** X11. The prompt check of a generation is exact: a generation sends
    nothing to the network if and only if the prompt is empty or all white
    space. *)
Theorem X11_generate_sends_iff_prompt_not_blank (st : AppState) (w : W) :
  requests (log (run (generateAIContent env) st w)) = []
  <-> JsString.blank (aiPrompt st).
Proof.
  split.
  - intros Hnone. apply JsStringFacts.trim_nil_iff.
    destruct (JsString.trim (aiPrompt st)) as [|c r] eqn:Htrim; [reflexivity|].
    exfalso. revert Hnone. unfold run, fire, generateAIContent. simpl.
    rewrite Htrim. unfold_run. repeat respond; discriminate.
  - intros Hblank. unfold run, fire, generateAIContent. simpl.
    rewrite (JsStringFacts.truthy_trim_blank _ Hblank). reflexivity.
Qed.

(** X12. On the full success path of a save (the write and the refresh both
    succeed) exactly two requests are sent, the write and then the list
    request; the session is bound to the returned draft, the draft list is
    the refreshed one, the error slot is empty, the Save button is enabled,
    and nothing else in the store has changed. *)
Theorem X12_save_success_path
  (st : AppState) (w w1 w2 : W) (d : Draft) (l : list Draft) :
  JsString.trim (title st) <> [] ->
  match currentDraft st with
  | Some c => http_put_draft env (draft_id c) (title st) (content st) w
  | None => http_post_drafts env (title st) (content st) w
  end = (Resolved d, w1) ->
  http_get_drafts env w1 = (Resolved l, w2) ->
  store (run (saveDraft env) st w)
    = setIsLoading false (setError None (setDrafts l (setCurrentDraft (Some d) st)))
  /\ requests (log (run (saveDraft env) st w))
     = [match currentDraft st with
        | Some c => PUT_draft (draft_id c) (title st) (content st)
        | None => POST_drafts (title st) (content st)
        end; GET_drafts]
  /\ world (run (saveDraft env) st w) = w2.
Proof.
  intros Hvalid Hwrite Hget. unfold run, fire, saveDraft. simpl.
  rewrite (JsStringFacts.truthy_trim _ Hvalid).
  destruct (currentDraft st) as [c|]; unfold_run; rewrite Hwrite; simpl;
    rewrite Hget; simpl; repeat split; reflexivity.
Qed.

(** X13. [deleteDraft] sends nothing, or the delete request alone, or the
    delete request followed by the list request; it never creates or updates
    a draft, and it never changes the prompt or the two busy flags. *)
Theorem X13_delete_request_shape (st : AppState) (w : W) (draftId : jsstring) :
  (requests (log (run (fun r => deleteDraft env r draftId) st w)) = []
   \/ requests (log (run (fun r => deleteDraft env r draftId) st w))
      = [DELETE_draft draftId]
   \/ requests (log (run (fun r => deleteDraft env r draftId) st w))
      = [DELETE_draft draftId; GET_drafts])
  /\ aiPrompt (store (run (fun r => deleteDraft env r draftId) st w)) = aiPrompt st
  /\ isLoading (store (run (fun r => deleteDraft env r draftId) st w)) = isLoading st
  /\ isGenerating (store (run (fun r => deleteDraft env r draftId) st w))
     = isGenerating st.
Proof.
  unfold_run. respond; [|split; [left; reflexivity | repeat split; reflexivity]].
  respond.
  - destruct (currentDraft st) as [d|]; simpl;
      try destruct (JsString.eqb (draft_id d) draftId); simpl;
      respond; (split; [right; right; reflexivity | repeat split; reflexivity]).
  - split; [right; left; reflexivity | repeat split; reflexivity].
Qed.

End Sessions.

(** ** Further properties: sequences of gestures *)

Section Plays.

Context {W : Type} (env : Env W).

Lemma react_keeps_idle (g : Gesture) (m : Machine W) :
  idle (store m) -> idle (store (snd (fire (react env g) m))).
Proof.
  intros [Hl Hg]. unfold idle, fire, react, handler.
  destruct g as [[|d| |id|]|v|v|v]; unfold_run; try (split; assumption).
  - destruct (JsString.truthy (JsString.trim (title (store m)))); simpl;
      [|split; assumption].
    destruct (currentDraft (store m)) as [d|]; simpl;
      repeat respond; split; (reflexivity || assumption).
  - respond; [|split; assumption].
    destruct (currentDraft (store m)) as [d|]; simpl;
      try destruct (JsString.eqb (draft_id d) id); simpl;
      repeat respond; split; assumption.
  - destruct (JsString.truthy (JsString.trim (aiPrompt (store m)))); simpl;
      [|split; assumption].
    repeat respond; split; (reflexivity || assumption).
Qed.

(** X14. The busy flags never stick: starting from a page where neither
    button is busy, after any sequence of clicks and typing, with any answers
    of the world, neither button is busy, so Save and Generate are enabled
    and carry their normal labels. *)
Theorem X14_buttons_never_stay_busy (gs : list Gesture) (m : Machine W) :
  idle (store m) ->
  idle (store (play env gs m))
  /\ View.saveLabel (store (play env gs m)) = js "Save"
  /\ View.generateLabel (store (play env gs m)) = js "Generate".
Proof.
  revert m. induction gs as [|g gs IH]; intros m Hidle; simpl.
  - pose proof Hidle as [Hl Hg]. unfold View.saveLabel, View.generateLabel.
    rewrite Hl, Hg. split; [exact Hidle | split; reflexivity].
  - apply IH. apply react_keeps_idle. exact Hidle.
Qed.

Lemma react_keeps_error_known (g : Gesture) (m : Machine W) :
  error_known (store m) -> error_known (store (snd (fire (react env g) m))).
Proof.
  intros Hk. unfold fire, react, handler.
  assert (Hmsgs : forall msg, In msg messages ->
                    forall s, error s = Some msg -> error_known s).
  { intros msg Hin s Hs. unfold error_known. rewrite Hs. exact Hin. }
  assert (Hnone : forall s, error s = None -> error_known s).
  { intros s Hs. unfold error_known. rewrite Hs. exact I. }
  destruct g as [[|d| |id|]|v|v|v]; unfold_run;
    try exact Hk; try (apply Hnone; reflexivity).
  - destruct (JsString.truthy (JsString.trim (title (store m)))); simpl.
    + destruct (currentDraft (store m)) as [d|]; simpl; repeat respond;
        first [ apply Hnone; reflexivity
              | apply (Hmsgs (js "Failed to save draft"));
                [simpl; tauto | reflexivity] ].
    + apply (Hmsgs (js "Please enter a title for your draft"));
        [simpl; tauto | reflexivity].
  - respond; [|exact Hk].
    destruct (currentDraft (store m)) as [d|]; simpl;
      try destruct (JsString.eqb (draft_id d) id); simpl;
      repeat respond;
      first [ apply Hnone; reflexivity
            | apply (Hmsgs (js "Failed to fetch drafts"));
              [simpl; tauto | reflexivity]
            | apply (Hmsgs (js "Failed to delete draft"));
              [simpl; tauto | reflexivity] ].
  - destruct (JsString.truthy (JsString.trim (aiPrompt (store m)))); simpl.
    + repeat respond;
        first [ apply Hnone; reflexivity
              | apply (Hmsgs (js "Failed to generate AI content"));
                [simpl; tauto | reflexivity] ].
    + apply (Hmsgs (js "Please enter a prompt for AI generation"));
        [simpl; tauto | reflexivity].
Qed.

Lemma banner_of_known (s : AppState) :
  error_known s -> View.errorBanner s = error s.
Proof.
  unfold error_known, View.errorBanner.
  destruct (error s) as [msg|]; [|reflexivity].
  intros H. simpl in H.
  repeat (destruct H as [<-|H]; [reflexivity|]). contradiction H.
Qed.

(** X15. The error slot only ever holds one of the six messages of the
    handlers: starting from a page whose slot is empty or holds one of them,
    after any sequence of clicks and typing, with any answers of the world,
    the slot is again empty or one of the six; the banner then shows exactly
    what the slot holds (no message is the empty string, and no transport
    detail reaches the page). *)
Theorem X15_error_slot_holds_known_messages (gs : list Gesture) (m : Machine W) :
  error_known (store m) ->
  error_known (store (play env gs m))
  /\ View.errorBanner (store (play env gs m)) = error (store (play env gs m)).
Proof.
  revert m. induction gs as [|g gs IH]; intros m Hk; simpl.
  - split; [exact Hk | apply banner_of_known; exact Hk].
  - apply IH. apply react_keeps_error_known. exact Hk.
Qed.

(** One save of an unbound session with a valid title, from any machine. *)
Lemma saveDraft_unbound_step (m : Machine W) :
  currentDraft (store m) = None ->
  JsString.trim (title (store m)) <> [] ->
  exists evs,
    log (snd (fire (saveDraft env) m)) = log m ++ evs
    /\ filter is_create (requests evs)
       = [POST_drafts (title (store m)) (content (store m))]
    /\ filter is_update (requests evs) = []
    /\ title (store (snd (fire (saveDraft env) m))) = title (store m)
    /\ content (store (snd (fire (saveDraft env) m))) = content (store m)
    /\ (forall d w1,
          http_post_drafts env (title (store m)) (content (store m)) (world m)
            = (Resolved d, w1) ->
          currentDraft (store (snd (fire (saveDraft env) m))) = Some d)
    /\ (forall err w1,
          http_post_drafts env (title (store m)) (content (store m)) (world m)
            = (Rejected err, w1) ->
          currentDraft (store (snd (fire (saveDraft env) m))) = None).
Proof.
  intros Hnull Hvalid. unfold fire, saveDraft.
  rewrite (JsStringFacts.truthy_trim _ Hvalid), Hnull. unfold_run.
  destruct (http_post_drafts env (title (store m)) (content (store m)) (world m))
    as [[d0|err0] w0]; simpl.
  - destruct (http_get_drafts env w0) as [[l|err1] w2]; simpl;
      eexists; (split; [rewrite <- !app_assoc; reflexivity|]); simpl;
      do 4 (split; [reflexivity|]);
      (split; [intros d1 w1 H; inversion H; reflexivity
              | intros e1 w1 H; discriminate H]).
  - eexists. split; [rewrite <- !app_assoc; reflexivity|]. simpl.
    do 4 (split; [reflexivity|]).
    split; [intros d1 w1 H; discriminate H | intros e1 w1 H; exact Hnull].
Qed.

(** X16. Two saves in a row of an unbound session whose first create
    succeeds send one create and then one update: the second save is
    addressed to the id the store returned for the first, carries the same
    buffers, and creates nothing. *)
Theorem X16_create_then_update (st : AppState) (w w1 : W) (d : Draft) :
  currentDraft st = None ->
  JsString.trim (title st) <> [] ->
  http_post_drafts env (title st) (content st) w = (Resolved d, w1) ->
  filter is_create (requests (log (play env [Click Save; Click Save] (boot st w))))
    = [POST_drafts (title st) (content st)]
  /\ filter is_update (requests (log (play env [Click Save; Click Save] (boot st w))))
     = [PUT_draft (draft_id d) (title st) (content st)].
Proof.
  intros Hnull Hvalid Hpost.
  change (play env [Click Save; Click Save] (boot st w))
    with (snd (fire (saveDraft env) (snd (fire (saveDraft env) (boot st w))))).
  destruct (saveDraft_unbound_step (boot st w) Hnull Hvalid)
    as (evs1 & Hlog1 & Hc1 & Hu1 & Ht1 & Hcnt1 & Hok1 & _).
  specialize (Hok1 d w1 Hpost). simpl in Hlog1, Ht1, Hcnt1.
  assert (Hvalid1 :
    JsString.trim (title (store (snd (fire (saveDraft env) (boot st w))))) <> [])
    by (rewrite Ht1; exact Hvalid).
  destruct (saveDraft_bound_step env _ d Hok1 Hvalid1)
    as (evs2 & d2 & Hlog2 & Hc2 & Hu2 & _).
  rewrite Hlog2, Hlog1, requests_app, !filter_app, Hc1, Hc2, Hu1, Hu2, Ht1, Hcnt1.
  split; reflexivity.
Qed.

(** X17. When the create of an unbound session is rejected, the session
    stays unbound, so the next save sends a create again (and no update):
    a failed create is retried as a create. *)
Theorem X17_failed_create_is_retried_as_create
  (st : AppState) (w w1 : W) (err : AxiosError) :
  currentDraft st = None ->
  JsString.trim (title st) <> [] ->
  http_post_drafts env (title st) (content st) w = (Rejected err, w1) ->
  filter is_create (requests (log (play env [Click Save; Click Save] (boot st w))))
    = [POST_drafts (title st) (content st); POST_drafts (title st) (content st)]
  /\ filter is_update (requests (log (play env [Click Save; Click Save] (boot st w))))
     = [].
Proof.
  intros Hnull Hvalid Hpost.
  change (play env [Click Save; Click Save] (boot st w))
    with (snd (fire (saveDraft env) (snd (fire (saveDraft env) (boot st w))))).
  destruct (saveDraft_unbound_step (boot st w) Hnull Hvalid)
    as (evs1 & Hlog1 & Hc1 & Hu1 & Ht1 & Hcnt1 & _ & Hrej1).
  specialize (Hrej1 err w1 Hpost). simpl in Hlog1, Ht1, Hcnt1.
  assert (Hvalid1 :
    JsString.trim (title (store (snd (fire (saveDraft env) (boot st w))))) <> [])
    by (rewrite Ht1; exact Hvalid).
  destruct (saveDraft_unbound_step _ Hrej1 Hvalid1)
    as (evs2 & Hlog2 & Hc2 & Hu2 & _).
  rewrite Hlog2, Hlog1, requests_app, !filter_app, Hc1, Hc2, Hu1, Hu2, Ht1, Hcnt1.
  split; reflexivity.
Qed.

(** X18. A successful generation empties the prompt, so pressing Generate
    again without typing is stopped by the prompt check: only the first
    request is sent, the content holds the first text appended once, and the
    error slot asks for a prompt. *)
Theorem X18_generate_twice_needs_new_prompt
  (st : AppState) (w w1 : W) (g : Generated) :
  JsString.trim (aiPrompt st) <> [] ->
  http_post_generate env (aiPrompt st) 150 w = (Resolved g, w1) ->
  requests (log (play env [Click Generate; Click Generate] (boot st w)))
    = [POST_generate (aiPrompt st) 150]
  /\ content (store (play env [Click Generate; Click Generate] (boot st w)))
     = content st ++ [JsString.LF; JsString.LF] ++ generated_text g
  /\ error (store (play env [Click Generate; Click Generate] (boot st w)))
     = Some (js "Please enter a prompt for AI generation").
Proof.
  intros Hvalid Hgen.
  change (play env [Click Generate; Click Generate] (boot st w))
    with (snd (fire (generateAIContent env)
                 (snd (fire (generateAIContent env) (boot st w))))).
  assert (Hfirst :
    snd (fire (generateAIContent env) (boot st w))
    = {| store :=
           setIsGenerating false
             (setAiPrompt []
                (setContentWith
                   (fun prev => prev ++ [JsString.LF; JsString.LF] ++ generated_text g)
                   (setError None (setIsGenerating true st))));
         world := w1;
         log := [Await (POST_generate (aiPrompt st) 150)
                   (setError None (setIsGenerating true st))] |}).
  { unfold fire, generateAIContent, boot. simpl.
    rewrite (JsStringFacts.truthy_trim _ Hvalid). unfold_run. rewrite Hgen.
    reflexivity. }
  rewrite Hfirst. unfold fire, generateAIContent. simpl.
  repeat split; reflexivity.
Qed.

(** X19. Opening a draft from the list and saving at once sends an update
    to that draft's id carrying that draft's own title and content, whatever
    was in the editor before (unsaved edits are dropped by the load), and
    creates nothing; the opened draft is the highlighted entry and the
    heading reads "Edit Draft". *)
Theorem X19_load_then_save_updates_loaded_draft
  (st : AppState) (w : W) (d : Draft) :
  JsString.trim (draft_title d) <> [] ->
  hd_error (requests (log (play env [Click (Load d); Click Save] (boot st w))))
    = Some (PUT_draft (draft_id d) (draft_title d) (draft_content d))
  /\ filter is_create
       (requests (log (play env [Click (Load d); Click Save] (boot st w)))) = []
  /\ View.isSelected (store (play env [Click (Load d)] (boot st w))) d = true
  /\ View.heading (store (play env [Click (Load d)] (boot st w))) = js "Edit Draft".
Proof.
  intros Hvalid.
  unfold play, boot, fire, react, handler, loadDraft, View.isSelected, View.heading.
  unfold_run. rewrite (JsStringFacts.truthy_trim _ Hvalid). simpl.
  rewrite JsStringFacts.eqb_refl.
  repeat respond; repeat split; reflexivity.
Qed.

(** X20. Pressing New Draft and then Save at once sends nothing: the reset
    emptied the title, so the save stops at the title check, the session
    stays unbound and the error slot asks for a title, whatever the page
    held before. *)
Theorem X20_new_then_save_is_rejected (st : AppState) (w : W) :
  requests (log (play env [Click NewDraft; Click Save] (boot st w))) = []
  /\ currentDraft (store (play env [Click NewDraft; Click Save] (boot st w))) = None
  /\ View.heading (store (play env [Click NewDraft; Click Save] (boot st w)))
     = js "New Draft"
  /\ error (store (play env [Click NewDraft; Click Save] (boot st w)))
     = Some (js "Please enter a title for your draft")
  /\ drafts (store (play env [Click NewDraft; Click Save] (boot st w))) = drafts st.
Proof.
  unfold play, boot, fire, react, handler, View.heading. unfold_run.
  repeat split; reflexivity.
Qed.

End Plays.

(** ** Concrete runs *)

Lemma mock_keeps_identity : keeps_identity Mock.env.
Proof.
  intros id t c w d w'. simpl. unfold Mock.put_draft.
  destruct (Mock.reachable w); [|discriminate].
  destruct (find _ _); [|discriminate].
  intros H. inversion H. reflexivity.
Qed.


Lemma C1_witness :
  currentDraft Mock.typed = None
  /\ JsString.trim (title Mock.typed) <> []
  /\ filter is_create
       (requests (log (run (saveDraft Mock.env) Mock.typed (Mock.world true true))))
     = [POST_drafts (js "T") (js "C")]
  /\ boundId (store (run (saveDraft Mock.env) Mock.typed (Mock.world true true)))
     = Some (js "d1").
Proof.
  assert (H1 : currentDraft Mock.typed = None) by reflexivity.
  assert (H2 : JsString.trim (title Mock.typed) <> []) by (vm_compute; discriminate).
  destruct (C1_save_unbound_creates_once Mock.env Mock.typed (Mock.world true true) H1 H2)
    as (Hc & _ & _ & Hb).
  destruct (Hb _ _ eq_refl) as [_ Hid].
  exact (conj H1 (conj H2 (conj Hc Hid))).
Defined.

Lemma C2_witness :
  currentDraft Mock.editing = Some Mock.note
  /\ JsString.trim (title Mock.editing) <> []
  /\ keeps_identity Mock.env
  /\ filter is_update
       (requests (log (saves Mock.env 2
                         {| store := Mock.editing; world := Mock.world true true;
                            log := [] |})))
     = [PUT_draft (js "d0") (js "Notes") (js "first line");
        PUT_draft (js "d0") (js "Notes") (js "first line")]
  /\ filter is_create
       (requests (log (saves Mock.env 2
                         {| store := Mock.editing; world := Mock.world true true;
                            log := [] |})))
     = [].
Proof.
  assert (H1 : currentDraft Mock.editing = Some Mock.note) by reflexivity.
  assert (H2 : JsString.trim (title Mock.editing) <> []) by (vm_compute; discriminate).
  destruct (C2_save_bound_updates_never_creates Mock.env Mock.editing
              (Mock.world true true) Mock.note H1 H2) as [_ Hn].
  destruct (Hn 2) as (Hc & _ & _ & Hk).
  destruct (Hk mock_keeps_identity) as [Hu _].
  exact (conj H1 (conj H2 (conj mock_keeps_identity (conj Hu Hc)))).
Defined.

Lemma C3_witness :
  JsString.trim (title Mock.editing) <> []
  /\ http_put_draft Mock.env (js "d0") (js "Notes") (js "first line")
       (Mock.world false true)
     = (Rejected Mock.network_error, Mock.world false true)
  /\ error (store (run (saveDraft Mock.env) Mock.editing (Mock.world false true)))
     = Some (js "Failed to save draft")
  /\ currentDraft (store (run (saveDraft Mock.env) Mock.editing (Mock.world false true)))
     = Some Mock.note.
Proof.
  assert (H1 : JsString.trim (title Mock.editing) <> []) by (vm_compute; discriminate).
  assert (H2 : http_put_draft Mock.env (js "d0") (js "Notes") (js "first line")
                 (Mock.world false true)
               = (Rejected Mock.network_error, Mock.world false true)) by reflexivity.
  destruct (C3_save_failure_keeps_binding Mock.env Mock.editing (Mock.world false true)
              (Mock.world false true) Mock.network_error H1 H2)
    as (He & _ & Hcur & _).
  exact (conj H1 (conj H2 (conj He Hcur))).
Defined.

Lemma C4_witness :
  JsString.trim (aiPrompt Mock.editing) <> []
  /\ http_post_generate Mock.env (js "write a haiku") 150 (Mock.world true true)
     = (Resolved {| generated_text := js "An old silent pond" |}, Mock.world true true)
  /\ JsString.lines
       (content (store (run (generateAIContent Mock.env) Mock.editing
                          (Mock.world true true))))
     = [js "first line"; []; js "An old silent pond"].
Proof.
  assert (H1 : JsString.trim (aiPrompt Mock.editing) <> []) by (vm_compute; discriminate).
  assert (H2 : http_post_generate Mock.env (js "write a haiku") 150 (Mock.world true true)
               = (Resolved {| generated_text := js "An old silent pond" |},
                  Mock.world true true)) by reflexivity.
  destruct (C4_generate_appends_after_blank_line Mock.env Mock.editing
              (Mock.world true true) (Mock.world true true) _ H1 H2)
    as (_ & Hlines & _).
  exact (conj H1 (conj H2 Hlines)).
Defined.


Lemma C6_witness :
  window_confirm Mock.env confirm_message (Mock.world true true)
    = (true, Mock.world true true)
  /\ filter is_delete
       (requests (log (run (fun r => deleteDraft Mock.env r (js "d0")) Mock.editing
                         (Mock.world true true))))
     = [DELETE_draft (js "d0")]
  /\ currentDraft (store (run (fun r => deleteDraft Mock.env r (js "d0")) Mock.editing
                            (Mock.world true true)))
     = None
  /\ content (store (run (fun r => deleteDraft Mock.env r (js "d0")) Mock.editing
                       (Mock.world true true)))
     = [].
Proof.
  assert (H1 : window_confirm Mock.env confirm_message (Mock.world true true)
               = (true, Mock.world true true)) by reflexivity.
  destruct (C6_delete_confirmed Mock.env Mock.editing _ _ (js "d0") H1)
    as (_ & Hd & Hok & _).
  destruct (Hok _ eq_refl) as (_ & _ & Hreset & _).
  destruct (Hreset eq_refl) as (Hcur & _ & Hcontent).
  exact (conj H1 (conj Hd (conj Hcur Hcontent))).
Defined.

Lemma C7_witness :
  JsString.blank (title (setTitle (js "   ") Mock.editing))
  /\ error (store (run (saveDraft Mock.env) (setTitle (js "   ") Mock.editing)
                     (Mock.world true true)))
     = Some (js "Please enter a title for your draft")
  /\ log (run (saveDraft Mock.env) (setTitle (js "   ") Mock.editing)
            (Mock.world true true))
     = [].
Proof.
  assert (H1 : JsString.blank (title (setTitle (js "   ") Mock.editing)))
    by (repeat constructor).
  destruct (C7_save_blank_title_rejected Mock.env _ (Mock.world true true) H1)
    as (Hstore & _ & Hlog & _).
  exact (conj H1 (conj (f_equal error Hstore) Hlog)).
Defined.

Lemma C8_witness :
  JsString.blank (aiPrompt Mock.typed)
  /\ requests (log (run (generateAIContent Mock.env) Mock.typed (Mock.world true true)))
     = []
  /\ content (store (run (generateAIContent Mock.env) Mock.typed (Mock.world true true)))
     = js "C".
Proof.
  assert (H1 : JsString.blank (aiPrompt Mock.typed)) by constructor.
  destruct (C8_generate_blank_prompt_rejected Mock.env Mock.typed (Mock.world true true) H1)
    as (_ & Hreq & Hcontent & _).
  exact (conj H1 (conj Hreq Hcontent)).
Defined.

Lemma C9_witness :
  JsString.trim (aiPrompt Mock.editing) <> []
  /\ http_post_generate Mock.env (js "write a haiku") 150 (Mock.world false true)
     = (Rejected Mock.network_error, Mock.world false true)
  /\ content (store (run (generateAIContent Mock.env) Mock.editing (Mock.world false true)))
     = js "first line"
  /\ aiPrompt (store (run (generateAIContent Mock.env) Mock.editing (Mock.world false true)))
     = js "write a haiku".
Proof.
  assert (H1 : JsString.trim (aiPrompt Mock.editing) <> []) by (vm_compute; discriminate).
  assert (H2 : http_post_generate Mock.env (js "write a haiku") 150 (Mock.world false true)
               = (Rejected Mock.network_error, Mock.world false true)) by reflexivity.
  destruct (C9_generate_failure_keeps_buffers Mock.env Mock.editing _ _ _ H1 H2)
    as (_ & _ & Hcontent & Hprompt & _).
  exact (conj H1 (conj H2 (conj Hcontent Hprompt))).
Defined.

Lemma C10_witness :
  window_confirm Mock.env confirm_message (Mock.world true false)
    = (false, Mock.world true false)
  /\ requests (log (run (fun r => deleteDraft Mock.env r (js "d0")) Mock.stale
                      (Mock.world true false)))
     = []
  /\ store (run (fun r => deleteDraft Mock.env r (js "d0")) Mock.stale
              (Mock.world true false))
     = Mock.stale.
Proof.
  assert (H1 : window_confirm Mock.env confirm_message (Mock.world true false)
               = (false, Mock.world true false)) by reflexivity.
  destruct (C10_delete_declined_is_noop Mock.env Mock.stale _ _ (js "d0") H1)
    as (Hreq & Hstore & _).
  exact (conj H1 (conj Hreq Hstore)).
Defined.

(** ** Concrete runs of the further properties *)

Lemma X1_witness :
  http_get_drafts Mock.env (Mock.world true true)
    = (Resolved [Mock.note], Mock.world true true)
  /\ store (mount Mock.env (Mock.world true true)) = setDrafts [Mock.note] initialState
  /\ View.showsNoDrafts (store (mount Mock.env (Mock.world true true))) = false.
Proof.
  assert (H1 : http_get_drafts Mock.env (Mock.world true true)
               = (Resolved [Mock.note], Mock.world true true)) by reflexivity.
  destruct (X1_fetchDrafts_replaces_list Mock.env initialState _ _ _ H1)
    as (_ & _ & Hmount & _).
  refine (conj H1 (conj Hmount _)). rewrite Hmount. reflexivity.
Defined.

Lemma X2_witness :
  http_get_drafts Mock.env (Mock.world false true)
    = (Rejected Mock.network_error, Mock.world false true)
  /\ drafts (store (run (fun _ => fetchDrafts Mock.env) Mock.editing
                      (Mock.world false true)))
     = [Mock.note]
  /\ error (store (run (fun _ => fetchDrafts Mock.env) Mock.editing
                     (Mock.world false true)))
     = Some (js "Failed to fetch drafts").
Proof.
  assert (H1 : http_get_drafts Mock.env (Mock.world false true)
               = (Rejected Mock.network_error, Mock.world false true)) by reflexivity.
  destruct (X2_fetchDrafts_failure_keeps_list Mock.env Mock.editing _ _ _ H1)
    as (Hstore & Hdrafts & _).
  exact (conj H1 (conj Hdrafts (f_equal error Hstore))).
Defined.

Lemma X4_witness :
  JsString.trim (title Mock.typed) <> []
  /\ fst (http_post_drafts Flaky.env (js "T") (js "C") (Flaky.world 1))
     = Resolved {| draft_id := js "d1"; draft_title := js "T"; draft_content := js "C";
                   created_at := js "1"; updated_at := js "1" |}
  /\ fst (http_get_drafts Flaky.env
            (snd (http_post_drafts Flaky.env (js "T") (js "C") (Flaky.world 1))))
     = Rejected Mock.network_error
  /\ boundId (store (run (saveDraft Flaky.env) Mock.typed (Flaky.world 1)))
     = Some (js "d1")
  /\ error (store (run (saveDraft Flaky.env) Mock.typed (Flaky.world 1))) = None.
Proof.
  assert (H1 : JsString.trim (title Mock.typed) <> []) by (vm_compute; discriminate).
  destruct (X4_save_swallows_refresh_failure Flaky.env Mock.typed (Flaky.world 1)
              _ _ _ _ H1 eq_refl eq_refl) as (Hcur & _ & Herr & _).
  refine (conj H1 (conj eq_refl (conj eq_refl (conj _ Herr)))).
  unfold boundId. rewrite Hcur. reflexivity.
Defined.

Lemma X5_witness :
  window_confirm Flaky.env confirm_message (Flaky.world 1) = (true, Flaky.world 1)
  /\ drafts (store (run (fun r => deleteDraft Flaky.env r (js "d0")) Mock.editing
                      (Flaky.world 1)))
     = [Mock.note]
  /\ error (store (run (fun r => deleteDraft Flaky.env r (js "d0")) Mock.editing
                     (Flaky.world 1)))
     = None.
Proof.
  assert (H1 : window_confirm Flaky.env confirm_message (Flaky.world 1)
               = (true, Flaky.world 1)) by reflexivity.
  destruct (X5_delete_refresh_failure Flaky.env Mock.editing _ _ _ _ (js "d0") _
              H1 eq_refl eq_refl) as (Hdrafts & Hbound & _).
  exact (conj H1 (conj Hdrafts (Hbound eq_refl))).
Defined.

Lemma X6_witness :
  JsString.trim (title Mock.editing) <> []
  /\ isLoading (store (run (saveDraft Mock.env) Mock.editing (Mock.world false true)))
     = false.
Proof.
  assert (H1 : JsString.trim (title Mock.editing) <> []) by (vm_compute; discriminate).
  destruct (X6_save_busy_while_in_flight Mock.env Mock.editing (Mock.world false true))
    as (_ & Hdone & _).
  exact (conj H1 (Hdone H1)).
Defined.


Lemma X10_witness :
  JsString.blank (title (setTitle (js "  ") Mock.editing))
  /\ requests (log (run (saveDraft Mock.env) (setTitle (js "  ") Mock.editing)
                      (Mock.world true true)))
     = [].
Proof.
  assert (H1 : JsString.blank (title (setTitle (js "  ") Mock.editing)))
    by (repeat constructor).
  exact (conj H1 (proj2 (X10_save_sends_iff_title_not_blank Mock.env _
                           (Mock.world true true)) H1)).
Defined.

Lemma X11_witness :
  JsString.blank (aiPrompt Mock.typed)
  /\ requests (log (run (generateAIContent Mock.env) Mock.typed (Mock.world true true)))
     = [].
Proof.
  assert (H1 : JsString.blank (aiPrompt Mock.typed)) by constructor.
  exact (conj H1 (proj2 (X11_generate_sends_iff_prompt_not_blank Mock.env _
                           (Mock.world true true)) H1)).
Defined.

Lemma X12_witness :
  JsString.trim (title Mock.editing) <> []
  /\ requests (log (run (saveDraft Mock.env) Mock.editing (Mock.world true true)))
     = [PUT_draft (js "d0") (js "Notes") (js "first line"); GET_drafts]
  /\ error (store (run (saveDraft Mock.env) Mock.editing (Mock.world true true))) = None.
Proof.
  assert (H1 : JsString.trim (title Mock.editing) <> []) by (vm_compute; discriminate).
  destruct (X12_save_success_path Mock.env Mock.editing (Mock.world true true)
              _ _ _ _ H1 eq_refl eq_refl) as (Hstore & Hreq & _).
  exact (conj H1 (conj Hreq (f_equal error Hstore))).
Defined.

Lemma X14_witness :
  idle initialState
  /\ idle (store (play Mock.env
                    [TypeTitle (js "T"); Click Save; TypePrompt (js "go"); Click Generate;
                     Click (Delete (js "d0"))]
                    (boot initialState (Mock.world false true)))).
Proof.
  assert (H1 : idle initialState) by (split; reflexivity).
  exact (conj H1 (proj1 (X14_buttons_never_stay_busy Mock.env _
                           (boot initialState (Mock.world false true)) H1))).
Defined.

Lemma X15_witness :
  error_known initialState
  /\ error_known (store (play Mock.env
                           [Click Save; TypeTitle (js "T"); Click Save; Click Generate]
                           (boot initialState (Mock.world false true)))).
Proof.
  assert (H1 : error_known initialState) by exact I.
  exact (conj H1 (proj1 (X15_error_slot_holds_known_messages Mock.env _
                           (boot initialState (Mock.world false true)) H1))).
Defined.

Lemma X16_witness :
  currentDraft Mock.typed = None
  /\ JsString.trim (title Mock.typed) <> []
  /\ filter is_update
       (requests (log (play Mock.env [Click Save; Click Save]
                         (boot Mock.typed (Mock.world true true)))))
     = [PUT_draft (js "d1") (js "T") (js "C")].
Proof.
  assert (H1 : currentDraft Mock.typed = None) by reflexivity.
  assert (H2 : JsString.trim (title Mock.typed) <> []) by (vm_compute; discriminate).
  destruct (X16_create_then_update Mock.env Mock.typed (Mock.world true true) _ _
              H1 H2 eq_refl) as [_ Hu].
  exact (conj H1 (conj H2 Hu)).
Defined.

Lemma X17_witness :
  currentDraft Mock.typed = None
  /\ JsString.trim (title Mock.typed) <> []
  /\ filter is_create
       (requests (log (play Mock.env [Click Save; Click Save]
                         (boot Mock.typed (Mock.world false true)))))
     = [POST_drafts (js "T") (js "C"); POST_drafts (js "T") (js "C")].
Proof.
  assert (H1 : currentDraft Mock.typed = None) by reflexivity.
  assert (H2 : JsString.trim (title Mock.typed) <> []) by (vm_compute; discriminate).
  destruct (X17_failed_create_is_retried_as_create Mock.env Mock.typed
              (Mock.world false true) _ _ H1 H2 eq_refl) as [Hc _].
  exact (conj H1 (conj H2 Hc)).
Defined.

Lemma X18_witness :
  JsString.trim (aiPrompt Mock.editing) <> []
  /\ requests (log (play Mock.env [Click Generate; Click Generate]
                      (boot Mock.editing (Mock.world true true))))
     = [POST_generate (js "write a haiku") 150].
Proof.
  assert (H1 : JsString.trim (aiPrompt Mock.editing) <> []) by (vm_compute; discriminate).
  destruct (X18_generate_twice_needs_new_prompt Mock.env Mock.editing
              (Mock.world true true) _ _ H1 eq_refl) as [Hreq _].
  exact (conj H1 Hreq).
Defined.

Lemma X19_witness :
  JsString.trim (draft_title Mock.note) <> []
  /\ hd_error (requests (log (play Mock.env [Click (Load Mock.note); Click Save]
                                (boot Mock.typed (Mock.world true true)))))
     = Some (PUT_draft (js "d0") (js "Notes") (js "first line")).
Proof.
  assert (H1 : JsString.trim (draft_title Mock.note) <> []) by (vm_compute; discriminate).
  destruct (X19_load_then_save_updates_loaded_draft Mock.env Mock.typed
              (Mock.world true true) Mock.note H1) as [Hhd _].
  exact (conj H1 Hhd).
Defined.
